(** * RadioObs: observation planning for a single-dish radio telescope

    A shallow embedding of [main.py]: the [Telescope] and [Source] classes,
    the radiometer-equation integration time, the altitude sampling loop and
    the interactive [main] driver.

    Conventions of the embedding.
    - A Python call is a computation in the monad [M]: it receives the world
      (pending console input, and the trace of everything the program has
      done to the outside so far) and either returns a value or raises an
      exception, together with the world it leaves behind.
    - [str.format] is not rendered: a printed line is kept as its template
      together with its arguments.
    - The astropy and builtin services the script calls (time parsing, float
      parsing, coordinate parsing, the frame transformation) are parameters
      of the development.
    - Numbers are embedded twice.  Module [Binary64] is the arithmetic the
      script runs: IEEE 754 binary64 with the rules of CPython for [/]
      ([ZeroDivisionError] on a zero divisor) and [**] ([OverflowError] on
      overflow, silent underflow), libm being a parameter.  Every statement
      about a computed value, or about an arithmetic failure, is made there.
      The definitions outside that module carry numbers as reals, in exact
      arithmetic; they serve the statements about control flow, input and
      output, and the sampling loop, which do not depend on how a number is
      rounded. *)

From Stdlib Require Import Reals Lra Lia ZArith List String Ascii Bool Sorted.
From Stdlib Require Floats.

Set Warnings "-inexact-float".
Import ListNotations.

Local Open Scope string_scope.
Local Open Scope Z_scope.
Local Open Scope R_scope.

(** ** Values exchanged with the outside *)

(** [astropy.coordinates.EarthLocation], in decimal degrees. *)
Record EarthLocation : Type := mkEarthLocation { lat : R; lon : R }.

(** [astropy.coordinates.SkyCoord], in decimal degrees. *)
Record SkyCoord : Type := mkSkyCoord { ra : R; dec : R }.

(** [astropy.time.Time]: seconds elapsed on the UTC scale since a fixed
    epoch (leap seconds disregarded). *)
Definition Time : Type := Z.

(** [astropy.coordinates.AltAz(location=..., obstime=...)]. *)
Record AltAz : Type := mkAltAz { location : EarthLocation; obstime : Time }.

(** Arguments handed to [str.format]. *)
Inductive value : Type :=
| VStr (s : string)
| VNum (x : R)
| VFloat (x : PrimFloat.float).

(** [template.format(args)], unrendered. *)
Record line : Type := Fmt { template : string; args : list value }.

(** What [plot_altitude] hands to matplotlib before [fig.show()]. *)
Record Figure : Type := mkFigure {
  plot_times : list Time;
  plot_altitudes : list R;
  plot_hlines : list R;
  plot_title : line
}.

Inductive event : Type :=
| Printed (l : line)
| Prompted (prompt : string)
| Transformed (sky : SkyCoord) (frame : AltAz)
| Shown (fig : Figure).

Inductive exn : Type :=
| ValueError
| ZeroDivisionError
| EOFError
| OverflowError
| TransformError.

Inductive outcome (A : Type) : Type :=
| Return (a : A)
| Raise (e : exn).
Arguments Return {A} a.
Arguments Raise {A} e.

Record World : Type := mkWorld { stdin : list string; trace : list event }.

(** ** The monad of Python calls *)

Module Py.

Definition M (A : Type) : Type := World -> outcome A * World.

Definition ret {A} (a : A) : M A := fun w => (Return a, w).

Definition raise {A} (e : exn) : M A := fun w => (Raise e, w).

Definition bind {A B} (m : M A) (k : A -> M B) : M B :=
  fun w =>
    match m w with
    | (Return a, w') => k a w'
    | (Raise e, w') => (Raise e, w')
    end.

Definition lift {A} (o : outcome A) : M A := fun w => (o, w).

(** [try: body except ValueError: handler]. *)
Definition try_except_ValueError {A} (body handler : M A) : M A :=
  fun w =>
    match body w with
    | (Raise ValueError, w') => handler w'
    | r => r
    end.

Definition emit (e : event) : M unit :=
  fun w => (Return tt, mkWorld (stdin w) (trace w ++ [e])).

(** [print(l)]. *)
Definition print (l : line) : M unit := emit (Printed l).

(** [input(prompt)]: shows the prompt, then consumes one line.  The lines
    of [stdin] are lines already decoded to text. *)
Definition input (prompt : string) : M string :=
  fun w =>
    let w1 := mkWorld (stdin w) (trace w ++ [Prompted prompt]) in
    match stdin w1 with
    | [] => (Raise EOFError, w1)
    | s :: rest => (Return s, mkWorld rest (trace w1))
    end.

(** [x / y] on numbers in exact arithmetic; [Binary64.truediv] is the
    binary64 operation. *)
Definition truediv (x y : R) : outcome R :=
  if Req_EM_T y 0 then Raise ZeroDivisionError else Return (x / y).

(** [x ** n] for an integer literal [n] in exact arithmetic;
    [Binary64.float_pow] is the binary64 operation. *)
Definition pow (x : R) (n : Z) : R := powerRZ x n.

End Py.

Import Py.

Declare Scope py_scope.
Delimit Scope py_scope with py.
Notation "x <- m ;; k" := (bind m (fun x => k))
  (at level 61, m at next level, right associativity) : py_scope.
Notation "m ;;; k" := (bind m (fun _ => k))
  (at level 61, right associativity) : py_scope.
Notation "x ** n" := (Py.pow x n) (at level 30, right associativity) : R_scope.
Local Open Scope py_scope.

(** [scipy.constants.pi] and [scipy.constants.k] (Boltzmann, J/K). *)
Definition const_pi : R := PI.
Definition const_k : R := 1.380649e-23.

(** ** Configuration block at the top of the script *)

Definition T_name : string := "42-ft telescope".
Definition T_latitude : string := "53d 14m 10.5s".
Definition T_longitude : string := "2d 18m 25.7s".
Definition T_diameter : R := 12.8.
Definition T_frequency : R := 610.
Definition T_bandwidth : R := 10.
Definition T_aperture_efficiency : R := 0.55.
Definition T_system_temperature : R := 130.

Definition S_name : string := "B0833-45".
Definition S_RA : string := "08:35:20.6".
Definition S_Dec : string := "-45:10:34.8".
Definition S_flux_density : R := 1100.00 / 1000.

(** ** Class Telescope *)

Record Telescope : Type := mkTelescope {
  t_name : string;
  t_location : EarthLocation;
  diameter : R;
  frequency : R;
  bandwidth : R;
  aperture_efficiency : R;
  system_temperature : R
}.

(** [Telescope.__init__]: seven plain attribute assignments. *)
Definition Telescope_init (name : string) (loc : EarthLocation)
    (t_diameter t_frequency t_bandwidth t_aperture_efficiency
       t_system_temperature : R) : M Telescope :=
  ret {| t_name := name;
         t_location := loc;
         diameter := t_diameter;
         frequency := t_frequency;
         bandwidth := t_bandwidth;
         aperture_efficiency := t_aperture_efficiency;
         system_temperature := t_system_temperature |}.

(** [Telescope.effective_area] (m^2). *)
Definition effective_area (self : Telescope) : M R :=
  half <- lift (truediv (diameter self) 2) ;;
  let effective_area := aperture_efficiency self * const_pi * half ** 2 in
  ret effective_area.

(** [Telescope.gain] (K/Jy). *)
Definition gain (self : Telescope) : M R :=
  area <- effective_area self ;;
  gain <- lift (truediv area (2 * const_k)) ;;
  let gain := gain * 10 ** (-26) in
  ret gain.

(** [Telescope.print_data]. *)
Definition Telescope_print_data (self : Telescope) : M unit :=
  print (Fmt "=========================================" []) ;;;
  print (Fmt "TELESCOPE" []) ;;;
  print (Fmt "Name: {0}" [VStr (t_name self)]) ;;;
  print (Fmt "Lat / Lon: {0:.3f} / {1:.3f}"
             [VNum (lat (t_location self)); VNum (lon (t_location self))]) ;;;
  print (Fmt "Diameter: {0} m" [VNum (diameter self)]) ;;;
  print (Fmt "Observing frequency: {0} MHz" [VNum (frequency self)]) ;;;
  print (Fmt "Bandwidth: {0} MHz" [VNum (bandwidth self)]) ;;;
  print (Fmt "Aperture efficiency: {0} MHz" [VNum (aperture_efficiency self)]) ;;;
  print (Fmt "System temperature: {0} K" [VNum (system_temperature self)]) ;;;
  print (Fmt "=========================================" []).

(** ** Services of the libraries the script calls *)

Class Library : Type := {
  (** [astropy.time.Time(s)]; [None] stands for its [ValueError]. *)
  Time_of_string : string -> option Time;
  (** builtin [float(s)]; [None] stands for its [ValueError]. *)
  float_of_string : string -> option R;
  (** [coords.EarthLocation(lat=..., lon=...)] on sexagesimal strings. *)
  EarthLocation_of : string -> string -> EarthLocation;
  (** [coords.SkyCoord(ra=..., dec=..., unit=(hourangle, deg))]. *)
  SkyCoord_of : string -> string -> SkyCoord;
  (** [sky.transform_to(frame).alt.deg]: the coordinate transform port. *)
  transform_to_alt_deg : SkyCoord -> AltAz -> outcome R
}.

(** ** Class Source *)

Record Source : Type := mkSource {
  s_name : string;
  s_location : SkyCoord;
  flux_density : R
}.

(** [Source.__init__]: three plain attribute assignments. *)
Definition Source_init (name : string) (loc : SkyCoord) (s_flux_density : R)
  : M Source :=
  ret {| s_name := name; s_location := loc; flux_density := s_flux_density |}.

(** [Source.print_data]. *)
Definition Source_print_data (self : Source) : M unit :=
  print (Fmt "=========================================" []) ;;;
  print (Fmt "SOURCE" []) ;;;
  print (Fmt "Name: {0}" [VStr (s_name self)]) ;;;
  print (Fmt "RA / Dec: {0:.3f} / {1:.3f}"
             [VNum (ra (s_location self)); VNum (dec (s_location self))]) ;;;
  print (Fmt "Flux density (at telescope observing frequency): {0} Jy"
             [VNum (flux_density self)]) ;;;
  print (Fmt "=========================================" []).

(** [np.arange(lo, hi)] on integers. *)
Definition arange (lo hi : Z) : list Z :=
  map (fun i => (lo + Z.of_nat i)%Z) (seq 0 (Z.to_nat (hi - lo))).

(** Sampling cadence of [plot_altitude], in seconds. *)
Definition dt : Z := (30 * 60)%Z.

(** The line printed by [print_integration_time]. *)
Definition integration_time_line (SNR integration_time : R) : line :=
  Fmt "The integration time for observing at SNR of {0:.1f} is {1:.3f} seconds."
      [VNum SNR; VNum integration_time].

Section Program.

Context {L : Library}.

(** [astrotime.Time(s)] as a call. *)
Definition Time_ (s : string) : M Time :=
  match Time_of_string s with
  | Some t => ret t
  | None => raise ValueError
  end.

(** [float(s)] as a call. *)
Definition float_ (s : string) : M R :=
  match float_of_string s with
  | Some x => ret x
  | None => raise ValueError
  end.

(** [self.location.transform_to(aa).alt.deg] as a call. *)
Definition transform_to (sky : SkyCoord) (aa : AltAz) : M R :=
  emit (Transformed sky aa) ;;; lift (transform_to_alt_deg sky aa).

(** The [for observation_time in observation_times] loop of
    [plot_altitude]; [altitudes] is the list being appended to. *)
Fixpoint altitude_loop (self : Source) (telescope : Telescope)
    (observation_times : list Time) (altitudes : list R) : M (list R) :=
  match observation_times with
  | [] => ret altitudes
  | observation_time :: rest =>
      let aa := mkAltAz (t_location telescope) observation_time in
      alt <- transform_to (s_location self) aa ;;
      altitude_loop self telescope rest (altitudes ++ [alt])
  end.

(** [Source.plot_altitude]. *)
Definition plot_altitude (self : Source) (telescope : Telescope)
    (date : string) : M unit :=
  t0 <- Time_ ((date ++ " ") ++ "00:00:00") ;;
  let observation_times :=
    map (fun k => (t0 + dt * k)%Z) (arange 0 (86400 / dt)) in
  altitudes <- altitude_loop self telescope observation_times [] ;;
  emit (Shown {| plot_times := observation_times;
                 plot_altitudes := altitudes;
                 plot_hlines := [0; 10];
                 plot_title :=
                   Fmt "$\mathrm{{Altitude~of~source~{0}~in~the~sky~on~{1}}}$"
                       [VStr (s_name self); VStr date] |}).

(** [Source.print_integration_time].  The call of [gain] sits in the
    divisor; the dividend is pure, so binding the gain first changes
    nothing. *)
Definition print_integration_time (self : Source) (telescope : Telescope)
    (SNR : R) : M unit :=
  g <- gain telescope ;;
  integration_time <-
    lift (truediv (SNR ** 2 * (system_temperature telescope) ** 2)
                  ((g * flux_density self) ** 2 * 2
                     * bandwidth telescope * 10 ** 6)) ;;
  print (integration_time_line SNR integration_time).

(** [str.lower], on ASCII letters. *)
Definition lower_ascii (c : ascii) : ascii :=
  let n := nat_of_ascii c in
  if ((65 <=? n) && (n <=? 90))%nat then ascii_of_nat (n + 32) else c.

Fixpoint lower (s : string) : string :=
  match s with
  | EmptyString => EmptyString
  | String c rest => String (lower_ascii c) (lower rest)
  end.

(** [s in [...]]. *)
Definition str_in (s : string) (l : list string) : bool :=
  existsb (String.eqb s) l.

(** [main].  The boolean returned by the first block tells whether control
    goes on to the second question ([false] is the [return] of the
    [except] clause). *)
Definition main : M unit :=
  let T_location := EarthLocation_of T_latitude T_longitude in
  Tel <- Telescope_init T_name T_location T_diameter T_frequency T_bandwidth
           T_aperture_efficiency T_system_temperature ;;
  Telescope_print_data Tel ;;;
  let S_location := SkyCoord_of S_RA S_Dec in
  Src <- Source_init S_name S_location S_flux_density ;;
  Source_print_data Src ;;;
  doplot <- input "Would you like to plot the altitude of the source in the sky? " ;;
  go_on <-
    (if str_in (lower doplot) ["y"; "yes"] then
       date <- input "Enter date of observation in YYYY-MM-DD format: " ;;
       try_except_ValueError
         (Time_ ((date ++ " ") ++ "00:00:00") ;;;
          plot_altitude Src Tel date ;;;
          ret true)
         (print (Fmt "Incorrect format for date!" []) ;;;
          ret false)
     else ret true) ;;
  if (go_on : bool) then
    dotime <- input "Would you like to know your integration time? " ;;
    if str_in (lower dotime) ["y"; "yes"] then
      SNR <- input "Enter signal-to-noise ratio you would like to achieve: " ;;
      try_except_ValueError
        (SNR <- float_ SNR ;;
         print_integration_time Src Tel SNR)
        (print (Fmt "Not a valid signal-to-noise ratio!" []))
    else ret tt
  else ret tt.

End Program.

(** ** Data-model invariants *)

(** Modelled from the spec: the invariants of a Telescope in its data model.
    The script never checks them; they are the hypotheses under which the
    formulas are meaningful. *)
Record Telescope_ok (t : Telescope) : Prop := {
  ok_t_name : t_name t <> "";
  ok_lat : -90 <= lat (t_location t) <= 90;
  ok_lon : -180 <= lon (t_location t) < 360;
  ok_diameter : 0 < diameter t;
  ok_frequency : 0 < frequency t;
  ok_bandwidth : 0 < bandwidth t;
  ok_aperture_efficiency : 0 < aperture_efficiency t <= 1;
  ok_system_temperature : 0 < system_temperature t
}.

(** Modelled from the spec: the invariants of a Source in its data model. *)
Record Source_ok (s : Source) : Prop := {
  ok_s_name : s_name s <> "";
  ok_ra : 0 <= ra (s_location s) < 360;
  ok_dec : -90 <= dec (s_location s) <= 90;
  ok_flux_density : 0 < flux_density s
}.

(** A call is rejected in world [w] when it raises. *)
Definition rejected {A} (m : M A) (w : World) : Prop :=
  exists e w', m w = (Raise e, w').

(** A call is silent when it returns [a] and leaves every world as it was. *)
Definition returns_silently {A} (m : M A) (a : A) : Prop :=
  forall w, m w = (Return a, w).

(** The world after further events. *)
Definition after (w : World) (evs : list event) : World :=
  mkWorld (stdin w) (trace w ++ evs).


(** The answer of the transform port where it answers. *)
Definition altitude_at {L : Library} (sky : SkyCoord) (loc : EarthLocation)
    (t : Time) : R :=
  match transform_to_alt_deg sky (mkAltAz loc t) with
  | Return a => a
  | Raise _ => 0
  end.

(** The 48 instants of one UTC day starting at [t0], every half hour. *)
Definition half_hours (t0 : Time) : list Time :=
  map (fun k => (t0 + 1800 * Z.of_nat k)%Z) (seq 0 48).

(** The figure [plot_altitude] shows for a day starting at [t0], when the
    port answers. *)
Definition altitude_figure {L : Library} (s : Source) (t : Telescope)
    (date : string) (t0 : Time) : Figure :=
  {| plot_times := half_hours t0;
     plot_altitudes :=
       map (altitude_at (s_location s) (t_location t)) (half_hours t0);
     plot_hlines := [0; 10];
     plot_title :=
       Fmt "$\mathrm{{Altitude~of~source~{0}~in~the~sky~on~{1}}}$"
           [VStr (s_name s); VStr date] |}.

(** What the two [print_data] calls at the start of [main] write. *)
Definition preamble {L : Library} : list event :=
  map Printed
    [ Fmt "=========================================" [];
      Fmt "TELESCOPE" [];
      Fmt "Name: {0}" [VStr T_name];
      Fmt "Lat / Lon: {0:.3f} / {1:.3f}"
          [VNum (lat (EarthLocation_of T_latitude T_longitude));
           VNum (lon (EarthLocation_of T_latitude T_longitude))];
      Fmt "Diameter: {0} m" [VNum T_diameter];
      Fmt "Observing frequency: {0} MHz" [VNum T_frequency];
      Fmt "Bandwidth: {0} MHz" [VNum T_bandwidth];
      Fmt "Aperture efficiency: {0} MHz" [VNum T_aperture_efficiency];
      Fmt "System temperature: {0} K" [VNum T_system_temperature];
      Fmt "=========================================" [];
      Fmt "=========================================" [];
      Fmt "SOURCE" [];
      Fmt "Name: {0}" [VStr S_name];
      Fmt "RA / Dec: {0:.3f} / {1:.3f}"
          [VNum (ra (SkyCoord_of S_RA S_Dec));
           VNum (dec (SkyCoord_of S_RA S_Dec))];
      Fmt "Flux density (at telescope observing frequency): {0} Jy"
          [VNum S_flux_density];
      Fmt "=========================================" [] ].

Definition ask_plot : event :=
  Prompted "Would you like to plot the altitude of the source in the sky? ".
Definition ask_date : event :=
  Prompted "Enter date of observation in YYYY-MM-DD format: ".
Definition ask_time : event :=
  Prompted "Would you like to know your integration time? ".
Definition ask_snr : event :=
  Prompted "Enter signal-to-noise ratio you would like to achieve: ".

(** The telescope and the source that [main] builds. *)
Definition main_Tel {L : Library} : Telescope :=
  mkTelescope T_name (EarthLocation_of T_latitude T_longitude) T_diameter
              T_frequency T_bandwidth T_aperture_efficiency
              T_system_temperature.

Definition main_Src {L : Library} : Source :=
  mkSource S_name (SkyCoord_of S_RA S_Dec) S_flux_density.

(** An answer to a yes/no question of [main] counts as yes. *)
Definition yes (s : string) : bool := str_in (lower s) ["y"; "yes"].

(** The divisor on line 132 of the script, for a gain [g]. *)
Definition divisor (g : R) (s : Source) (t : Telescope) : R :=
  (g * flux_density s) ^ 2 * 2 * bandwidth t * 10 ^ 6.

(** ** A reference instance of the library services *)

Module Civil.

Definition digit (c : ascii) : option Z :=
  let n := Z.of_nat (nat_of_ascii c) in
  if ((48 <=? n) && (n <=? 57))%Z then Some (n - 48)%Z else None.

(** Value of a non-empty run of decimal digits. *)
Fixpoint digits (cs : list ascii) (acc : Z) : option Z :=
  match cs with
  | [] => Some acc
  | c :: rest =>
      match digit c with
      | Some d => digits rest (10 * acc + d)%Z
      | None => None
      end
  end.

Definition number (cs : list ascii) : option Z :=
  match cs with
  | [] => None
  | _ => digits cs 0%Z
  end.

Definition is_leap (y : Z) : bool :=
  ((y mod 4 =? 0) && (negb (y mod 100 =? 0) || (y mod 400 =? 0)))%Z.

Definition days_in_month (y m : Z) : Z :=
  (if m =? 2 then (if is_leap y then 29 else 28)
   else if (m =? 4) || (m =? 6) || (m =? 9) || (m =? 11) then 30
   else 31)%Z.

(** A year, month and day that exist in the Gregorian calendar. *)
Definition valid_date (y m d : Z) : bool :=
  ((1 <=? m) && (m <=? 12) && (1 <=? d) && (d <=? days_in_month y m))%Z.

(** Days from 1970-01-01 to the given civil date. *)
Definition days_from_civil (y m d : Z) : Z :=
  (let y' := if m <=? 2 then y - 1 else y in
   let era := y' / 400 in
   let yoe := y' - era * 400 in
   let mp := if m <=? 2 then m + 9 else m - 3 in
   let doy := (153 * mp + 2) / 5 + d - 1 in
   let doe := yoe * 365 + yoe / 4 - yoe / 100 + doy in
   era * 146097 + doe - 719468)%Z.

(** Modelled from the spec: the time parser of astropy is not part of the
    script; this one accepts [YYYY-MM-DD HH:MM:SS] for a date that exists
    in the civil calendar and a time of day, and nothing else. *)
Definition Time_of_string (s : string) : option Time :=
  match list_ascii_of_string s with
  | [y1; y2; y3; y4; "-"%char; m1; m2; "-"%char; d1; d2; " "%char;
     h1; h2; ":"%char; n1; n2; ":"%char; s1; s2] =>
      match number [y1; y2; y3; y4], number [m1; m2], number [d1; d2],
            number [h1; h2], number [n1; n2], number [s1; s2] with
      | Some y, Some m, Some d, Some h, Some n, Some sec =>
          if (valid_date y m d && (h <? 24) && (n <? 60) && (sec <? 60))%Z
          then Some (days_from_civil y m d * 86400
                     + h * 3600 + n * 60 + sec)%Z
          else None
      | _, _, _, _, _, _ => None
      end
  | _ => None
  end.

(** Splits a numeral at its first dot. *)
Fixpoint split_dot (cs : list ascii) : list ascii * option (list ascii) :=
  match cs with
  | [] => ([], None)
  | c :: rest =>
      if Ascii.eqb c "."%char then ([], Some rest)
      else let (a, b) := split_dot rest in (c :: a, b)
  end.

(** Modelled from the spec: builtin [float] is not part of the script;
    this one accepts plain decimal numerals, [-]ddd[.ddd], and nothing
    else. *)
Definition float_of_string (s : string) : option R :=
  let cs := list_ascii_of_string s in
  let (sign, body) :=
    match cs with
    | "-"%char :: rest => ((-1)%Z, rest)
    | _ => (1%Z, cs)
    end in
  match split_dot body with
  | (ip, None) =>
      match number ip with
      | Some i => Some (IZR (sign * i))
      | None => None
      end
  | (ip, Some fp) =>
      match number ip, number fp with
      | Some i, Some f =>
          Some (IZR sign * (IZR i + IZR f / IZR (10 ^ Z.of_nat (List.length fp))))
      | _, _ => None
      end
  end.

(** The site and the source of the configuration block, in degrees. *)
Definition site : EarthLocation :=
  mkEarthLocation (53 + 14 / 60 + 10.5 / 3600) (2 + 18 / 60 + 25.7 / 3600).

Definition target : SkyCoord :=
  mkSkyCoord (15 * (8 + 35 / 60 + 20.6 / 3600))
             (- (45 + 10 / 60 + 34.8 / 3600)).

(** A deterministic stand-in for the transform port. *)
Definition flat_sky (sky : SkyCoord) (aa : AltAz) : outcome R :=
  Return (90 - Rabs (lat (location aa) - dec sky)).

End Civil.

Definition reference_library : Library :=
  {| Time_of_string := Civil.Time_of_string;
     float_of_string := Civil.float_of_string;
     EarthLocation_of := fun _ _ => Civil.site;
     SkyCoord_of := fun _ _ => Civil.target;
     transform_to_alt_deg := Civil.flat_sky |}.

(** The telescope and the source of the configuration block, with the
    reference library. *)
Definition demo_Tel : Telescope := @main_Tel reference_library.
Definition demo_Src : Source := @main_Src reference_library.

(** The port calls of [plot_altitude] for the first [n] instants of the day
    starting at [t0]. *)
Definition port_calls (s : Source) (t : Telescope) (t0 : Time) (n : nat)
  : list event :=
  map (fun k => Transformed (s_location s)
                  (mkAltAz (t_location t) (t0 + 1800 * Z.of_nat k)%Z))
      (seq 0 n).


(** The answers [main] takes for a yes. *)
Definition yes_answers : list string :=
  ["y"; "Y"; "yes"; "yeS"; "yEs"; "yES"; "Yes"; "YeS"; "YEs"; "YES"].

(** A port that answers before noon (UTC) and raises [e] from noon on. *)
Definition noon_fault (e : exn) (sky : SkyCoord) (aa : AltAz) : outcome R :=
  if (obstime aa mod 86400 <? 43200)%Z then Return (dec sky) else Raise e.

Definition faulty_library (e : exn) : Library :=
  {| Time_of_string := Civil.Time_of_string;
     float_of_string := Civil.float_of_string;
     EarthLocation_of := fun _ _ => Civil.site;
     SkyCoord_of := fun _ _ => Civil.target;
     transform_to_alt_deg := noon_fault e |}.

(** ** The arithmetic the script runs: binary64 *)


Module Binary64.

Import PrimFloat.
Local Open Scope float_scope.

(** The [pow] of the C library, which CPython calls for [**] on floats. *)
Class Libm : Type := { libm_pow : float -> float -> float }.

(** [x / y] on floats: [float_div] of CPython tests the divisor against
    zero (of either sign) before dividing. *)
Definition truediv (x y : float) : outcome float :=
  if y =? 0 then Raise ZeroDivisionError else Return (x / y).

(** [iv ** iw] on floats: [float_pow] of CPython, for an exponent that is a
    nonzero even integer, as are the two the script uses (2 and -26).  A NaN
    base is returned; an infinite base gives infinity or zero by the sign
    of the exponent; a zero base gives zero, or [ZeroDivisionError] for a
    negative exponent; otherwise the base is replaced by its absolute value
    (the exponent being even, the sign is dropped), 1 is returned as is, and
    libm's result is handed back unless it is infinite, which CPython turns
    into [OverflowError].  Underflow is silent: libm is taken to report a
    range error only with an infinite or a zero result, and CPython drops
    the error of a zero result. *)
Definition float_pow {libm : Libm} (iv iw : float) : outcome float :=
  if is_nan iv then Return iv
  else if is_infinity iv then Return (if 0 <? iw then abs iv else 0)
  else if iv =? 0 then
    (if iw <? 0 then Raise ZeroDivisionError else Return 0)
  else
    let iv := abs iv in
    if iv =? 1 then Return 1
    else
      let ix := libm_pow iv iw in
      if is_infinity ix then Raise OverflowError else Return ix.

(** [scipy.constants.pi] and [scipy.constants.k]. *)
Definition const_pi : float := 3.141592653589793.
Definition const_k : float := 1.380649e-23.

(** The classes, with the attributes the script documents as doubles.  An
    integer given for one of them, as in the configuration block, acts in
    these formulas as the double of the same value. *)
Record Telescope : Type := mkTelescope {
  t_name : string;
  t_location : EarthLocation;
  diameter : float;
  frequency : float;
  bandwidth : float;
  aperture_efficiency : float;
  system_temperature : float
}.

Record Source : Type := mkSource {
  s_name : string;
  s_location : SkyCoord;
  flux_density : float
}.

(** The line printed by [print_integration_time]. *)
Definition integration_time_line (SNR integration_time : float) : line :=
  Fmt "The integration time for observing at SNR of {0:.1f} is {1:.3f} seconds."
      [VFloat SNR; VFloat integration_time].

Section Methods.

Context {libm : Libm}.

(** [Telescope.effective_area]: the product is taken left to right, the
    square last. *)
Definition effective_area (self : Telescope) : M float :=
  half <- lift (truediv (diameter self) 2) ;;
  square <- lift (float_pow half 2) ;;
  let effective_area := aperture_efficiency self * const_pi * square in
  ret effective_area.

(** [Telescope.gain]: [10**(-26)] is a power of integers with a negative
    exponent, which CPython computes as a power of floats. *)
Definition gain (self : Telescope) : M float :=
  area <- effective_area self ;;
  gain <- lift (truediv area (2 * const_k)) ;;
  jansky <- lift (float_pow 10 (-26)) ;;
  let gain := gain * jansky in
  ret gain.

(** The value of the local variable [integration_time] on line 132 of
    [Source.print_integration_time], evaluated in the order of Python: the
    dividend (the two squares, then their product), then the divisor (the
    call of [gain], the product with the flux density, its square, and the
    three factors 2, bandwidth and [10**6]), then the division. *)
Definition integration_time (self : Source) (telescope : Telescope)
    (SNR : float) : M float :=
  snr2 <- lift (float_pow SNR 2) ;;
  temp2 <- lift (float_pow (system_temperature telescope) 2) ;;
  g <- gain telescope ;;
  gf2 <- lift (float_pow (g * flux_density self) 2) ;;
  lift (truediv (snr2 * temp2)
                (gf2 * 2 * bandwidth telescope * 1000000)).

(** [Source.print_integration_time]. *)
Definition print_integration_time (self : Source) (telescope : Telescope)
    (SNR : float) : M unit :=
  integration_time <- integration_time self telescope SNR ;;
  print (integration_time_line SNR integration_time).

End Methods.

(** Modelled from the spec: the invariants of a Telescope and of a Source
    in its data model, on doubles.  The script never checks them. *)
Record Telescope_ok (t : Telescope) : Prop := {
  ok_t_name : t_name t <> ""%string;
  ok_lat : (-90 <= lat (t_location t) <= 90)%R;
  ok_lon : (-180 <= lon (t_location t) < 360)%R;
  ok_diameter : (0 <? diameter t) = true;
  ok_frequency : (0 <? frequency t) = true;
  ok_bandwidth : (0 <? bandwidth t) = true;
  ok_aperture_efficiency :
    (0 <? aperture_efficiency t) = true /\ (aperture_efficiency t <=? 1) = true;
  ok_system_temperature : (0 <? system_temperature t) = true
}.

Record Source_ok (s : Source) : Prop := {
  ok_s_name : s_name s <> ""%string;
  ok_ra : (0 <= ra (s_location s) < 360)%R;
  ok_dec : (-90 <= dec (s_location s) <= 90)%R;
  ok_flux_density : (0 <? flux_density s) = true
}.

(** A number that is not negative, in its IEEE 754 description: a NaN, a
    zero, or a positive number or infinity. *)
Definition sf_not_negative (s : SpecFloat.spec_float) : Prop :=
  match s with
  | SpecFloat.S754_infinity true | SpecFloat.S754_finite true _ _ => False
  | _ => True
  end.

(** A stand-in for libm: the correctly rounded square, and the double
    nearest to 1e-26 for [pow(10, -26)].  The libm of a given platform may
    differ from it in the last bit of a square. *)
Definition reference_pow (x y : float) : float :=
  if y =? 2 then x * x
  else if (x =? 10) && (y =? -26) then 1e-26
  else nan.

Definition reference_libm : Libm := {| libm_pow := reference_pow |}.

(** The telescope and the source of the configuration block. *)
Definition demo_Tel : Telescope :=
  mkTelescope T_name Civil.site 12.8 610 10 0.55 130.

Definition demo_Src : Source := mkSource S_name Civil.target (1100.00 / 1000).

(** The configured telescope with another diameter or system temperature or
    bandwidth, the configured source with another flux density. *)
Definition dish (d : float) : Telescope :=
  mkTelescope T_name Civil.site d 610 10 0.55 130.


Definition source_of_flux (flux : float) : Source :=
  mkSource S_name Civil.target flux.

End Binary64.

(** * Properties *)

(** ** Arithmetic of the embedding *)








(** ** Telescope *)





(** ** Integration time *)

Section IntegrationTime.







End IntegrationTime.

(** ** Construction *)

(** C3 as worded fails: a telescope of diameter 0 is constructed, not
    rejected, although it violates the invariants. *)
Lemma construction_counterexample :
  let build :=
    Telescope_init T_name Civil.site 0 T_frequency T_bandwidth
      T_aperture_efficiency T_system_temperature in
  ~ rejected build (mkWorld [] [])
  /\ exists t, build (mkWorld [] []) = (Return t, mkWorld [] [])
               /\ ~ Telescope_ok t.
Proof.
  split.
  - intros [e [w' H]]. discriminate H.
  - eexists. split; [reflexivity |].
    intros H. pose proof (ok_diameter _ H) as Hd. cbn in Hd. lra.
Qed.

(** C3, as the code has it: constructing a Telescope or a Source checks
    nothing and never fails; it returns the entity holding exactly the
    arguments given, whatever their values, and touches nothing else.  In
    particular diameter = 0, aperture_efficiency = 1.5,
    system_temperature = -5 and flux_density = 0 are accepted. *)
Theorem construction_total :
  (forall name loc d f b e temp,
      returns_silently (Telescope_init name loc d f b e temp)
        (mkTelescope name loc d f b e temp)
      /\ forall w, ~ rejected (Telescope_init name loc d f b e temp) w)
  /\ (forall name loc flux,
         returns_silently (Source_init name loc flux) (mkSource name loc flux)
         /\ forall w, ~ rejected (Source_init name loc flux) w)
  /\ (forall name loc f b e temp w,
         ~ rejected (Telescope_init name loc 0 f b e temp) w)
  /\ (forall name loc d f b temp w,
         ~ rejected (Telescope_init name loc d f b 1.5 temp) w)
  /\ (forall name loc d f b e w,
         ~ rejected (Telescope_init name loc d f b e (-5)) w)
  /\ (forall name loc w, ~ rejected (Source_init name loc 0) w).
Proof.
  assert (forall A (a : A) w, ~ rejected (ret a) w) as Hret
    by (intros A a w [e [w' H]]; discriminate H).
  repeat split; intros; try reflexivity; apply Hret.
Qed.

(** ** The interactive driver *)

Ltac run :=
  cbv beta iota zeta delta
    [main bind ret raise lift emit print input try_except_ValueError
     Telescope_init Source_init Telescope_print_data Source_print_data
     stdin trace Time_ float_ after].

Section Driver.

Context {L : Library}.



(** Declining the plot, asking for the time, typing something [float]
    refuses: the message of the [except] clause, and no time. *)
Lemma main_bad_snr (a b c : string) (rest : list string) (tr : list event) :
  yes a = false -> yes b = true -> float_of_string c = None ->
  main (mkWorld (a :: b :: c :: rest) tr)
  = (Return tt,
     mkWorld rest
       (tr ++ preamble
           ++ [ask_plot; ask_time; ask_snr;
               Printed (Fmt "Not a valid signal-to-noise ratio!" [])])).
Proof.
  unfold yes. intros Ha Hb Hc.
  run. rewrite Ha. run. rewrite Hb. run. rewrite Hc. run.
  do 2 f_equal. rewrite <- !app_assoc. reflexivity.
Qed.


(** Asking for the plot and typing a date the time parser refuses: the
    message of the [except] clause, then [main] returns. *)
Lemma main_bad_date (a date : string) (rest : list string)
    (tr : list event) :
  yes a = true ->
  Time_of_string ((date ++ " ") ++ "00:00:00") = None ->
  main (mkWorld (a :: date :: rest) tr)
  = (Return tt,
     mkWorld rest
       (tr ++ preamble
           ++ [ask_plot; ask_date;
               Printed (Fmt "Incorrect format for date!" [])])).
Proof.
  unfold yes. intros Ha Hd.
  run. rewrite Ha. run. rewrite Hd. run.
  do 2 f_equal. rewrite <- !app_assoc. reflexivity.
Qed.

End Driver.

(** ** The time grid *)

Lemma observation_times_half_hours (t0 : Time) :
  map (fun k => (t0 + dt * k)%Z) (arange 0 (86400 / dt)) = half_hours t0.
Proof. reflexivity. Qed.

Lemma half_hours_length (t0 : Time) : List.length (half_hours t0) = 48%nat.
Proof. unfold half_hours. now rewrite length_map, length_seq. Qed.

Lemma half_hours_nth (t0 : Time) (k : nat) :
  (k < 48)%nat ->
  nth k (half_hours t0) 0%Z = (t0 + 1800 * Z.of_nat k)%Z.
Proof.
  intros Hk. unfold half_hours.
  set (f := fun i : nat => (t0 + 1800 * Z.of_nat i)%Z).
  rewrite (nth_indep _ 0%Z (f 0%nat)) by now rewrite length_map, length_seq.
  rewrite map_nth, seq_nth by exact Hk. reflexivity.
Qed.

Lemma grid_ascending (t0 : Time) (n a : nat) :
  StronglySorted Z.lt
    (map (fun k => (t0 + 1800 * Z.of_nat k)%Z) (seq a n)).
Proof.
  revert a. induction n as [| n IH]; intros a; cbn [seq map].
  - constructor.
  - constructor; [apply IH |].
    apply Forall_forall. intros x Hx.
    apply in_map_iff in Hx as [k [<- Hk]]. apply in_seq in Hk. lia.
Qed.

Lemma half_hours_In (t0 x : Time) :
  In x (half_hours t0) <->
  exists k, (k < 48)%nat /\ x = (t0 + 1800 * Z.of_nat k)%Z.
Proof.
  unfold half_hours. rewrite in_map_iff. split.
  - intros [k [<- Hk]]. apply in_seq in Hk. exists k. split; [lia | reflexivity].
  - intros [k [Hk ->]]. exists k. split; [reflexivity |]. apply in_seq. lia.
Qed.

(** ** The sampling loop *)

Section Sampler.

Context {L : Library}.

Lemma altitude_at_Return (sky : SkyCoord) (loc : EarthLocation) (t : Time)
    (a : R) :
  transform_to_alt_deg sky (mkAltAz loc t) = Return a ->
  altitude_at sky loc t = a.
Proof. intros H. unfold altitude_at. now rewrite H. Qed.

(** While the port answers, the loop calls it once per instant, in order,
    and appends its answer. *)
Lemma altitude_loop_run (s : Source) (t : Telescope) (ts : list Time) :
  (forall x, In x ts ->
     exists a, transform_to_alt_deg (s_location s)
                 (mkAltAz (t_location t) x) = Return a) ->
  forall (acc : list R) (w : World),
    altitude_loop s t ts acc w
    = (Return (acc ++ map (altitude_at (s_location s) (t_location t)) ts)%list,
       after w (map (fun x => Transformed (s_location s)
                                (mkAltAz (t_location t) x)) ts)).
Proof.
  induction ts as [| x ts IH]; intros Hport acc w.
  - cbn. unfold ret, after. rewrite !app_nil_r. now destruct w.
  - destruct (Hport x (or_introl eq_refl)) as [a Ha].
    cbn [altitude_loop map]. unfold bind at 1.
    unfold transform_to, bind, emit, lift. rewrite Ha.
    rewrite IH by (intros y Hy; apply Hport; now right).
    rewrite (altitude_at_Return _ _ _ _ Ha).
    unfold after. cbn [stdin trace]. rewrite <- !app_assoc. reflexivity.
Qed.

(** A date the time parser refuses stops [plot_altitude] at once. *)
Lemma plot_altitude_bad_date (s : Source) (t : Telescope) (date : string)
    (w : World) :
  Time_of_string ((date ++ " ") ++ "00:00:00") = None ->
  plot_altitude s t date w = (Raise ValueError, w).
Proof.
  intros H. unfold plot_altitude, bind, Time_. now rewrite H.
Qed.

Lemma plot_altitude_run (s : Source) (t : Telescope) (date : string)
    (t0 : Time) (w : World) :
  Time_of_string ((date ++ " ") ++ "00:00:00") = Some t0 ->
  (forall k, (k < 48)%nat ->
     exists a, transform_to_alt_deg (s_location s)
                 (mkAltAz (t_location t) (t0 + 1800 * Z.of_nat k)%Z)
               = Return a) ->
  plot_altitude s t date w
  = (Return tt,
     after w
       (map (fun x => Transformed (s_location s) (mkAltAz (t_location t) x))
            (half_hours t0)
        ++ [Shown {| plot_times := half_hours t0;
                     plot_altitudes :=
                       map (altitude_at (s_location s) (t_location t))
                           (half_hours t0);
                     plot_hlines := [0; 10];
                     plot_title :=
                       Fmt "$\mathrm{{Altitude~of~source~{0}~in~the~sky~on~{1}}}$"
                           [VStr (s_name s); VStr date] |}])).
Proof.
  intros Hdate Hport. unfold plot_altitude, bind at 1, Time_.
  rewrite Hdate. unfold ret at 1. rewrite observation_times_half_hours.
  unfold bind. rewrite altitude_loop_run.
  - unfold emit, after. cbn [stdin trace app]. now rewrite <- app_assoc.
  - intros x Hx. apply half_hours_In in Hx as [k [Hk ->]]. now apply Hport.
Qed.

End Sampler.

Section Visibility.

Context {L : Library}.

(** Asking for the plot with a date the parser accepts, then declining
    the integration time: the 48 port calls, the figure, the second
    question. *)
Lemma main_plot (a date b : string) (rest : list string) (tr : list event)
    (t0 : Time) :
  yes a = true -> yes b = false ->
  Time_of_string ((date ++ " ") ++ "00:00:00") = Some t0 ->
  (forall k, (k < 48)%nat ->
     exists alt, transform_to_alt_deg (s_location main_Src)
                   (mkAltAz (t_location main_Tel) (t0 + 1800 * Z.of_nat k)%Z)
                 = Return alt) ->
  main (mkWorld (a :: date :: b :: rest) tr)
  = (Return tt,
     mkWorld rest
       (tr ++ preamble ++ [ask_plot; ask_date]
           ++ map (fun x => Transformed (s_location main_Src)
                              (mkAltAz (t_location main_Tel) x))
                  (half_hours t0)
           ++ [Shown (altitude_figure main_Src main_Tel date t0); ask_time])).
Proof.
  unfold yes. intros Ha Hb Hdate Hport.
  run. rewrite Ha. run. rewrite Hdate. run.
  unfold main_Src, main_Tel in Hport.
  rewrite (plot_altitude_run _ _ date t0 _ Hdate Hport).
  run. rewrite Hb. run.
  do 2 f_equal. rewrite <- !app_assoc. reflexivity.
Qed.

(** C2: for a date the time parser accepts as the instant [t0]
    (date 00:00:00 UTC) and a port that answers, one call of
    [plot_altitude] makes exactly 48 port calls, one per instant
    t0 + k * 1800 s for k = 0..47 in that order, and shows exactly those 48
    instants with the 48 altitudes the port returned for them; the
    instants are strictly ascending, the last one is 23:30:00 and
    24:00:00 is not among them. *)
Theorem plot_altitude_samples (s : Source) (t : Telescope) (date : string)
    (t0 : Time) (w : World) :
  Time_of_string ((date ++ " ") ++ "00:00:00") = Some t0 ->
  (forall k, (k < 48)%nat ->
     exists alt, transform_to_alt_deg (s_location s)
                   (mkAltAz (t_location t) (t0 + 1800 * Z.of_nat k)%Z)
                 = Return alt) ->
  let times := half_hours t0 in
  let altitudes := map (altitude_at (s_location s) (t_location t)) times in
  plot_altitude s t date w
  = (Return tt,
     after w
       (map (fun x => Transformed (s_location s) (mkAltAz (t_location t) x))
            times
        ++ [Shown {| plot_times := times;
                     plot_altitudes := altitudes;
                     plot_hlines := [0; 10];
                     plot_title :=
                       Fmt "$\mathrm{{Altitude~of~source~{0}~in~the~sky~on~{1}}}$"
                           [VStr (s_name s); VStr date] |}]))
  /\ List.length times = 48%nat
  /\ List.length altitudes = 48%nat
  /\ (forall k, (k < 48)%nat ->
        nth k times 0%Z = (t0 + Z.of_nat k * 1800)%Z
        /\ transform_to_alt_deg (s_location s)
             (mkAltAz (t_location t) (nth k times 0%Z))
           = Return (nth k altitudes 0))
  /\ StronglySorted Z.lt times
  /\ last times 0%Z = (t0 + (23 * 3600 + 30 * 60))%Z
  /\ ~ In (t0 + 24 * 3600)%Z times.
Proof.
  intros Hdate Hport times altitudes.
  split; [now apply plot_altitude_run |].
  split; [apply half_hours_length |].
  split; [unfold altitudes; rewrite length_map; apply half_hours_length |].
  split; [| split; [apply grid_ascending | split; [reflexivity |]]].
  - intros k Hk. unfold altitudes, times.
    rewrite half_hours_nth by exact Hk.
    split; [lia |].
    rewrite (nth_indep _ 0 (altitude_at (s_location s) (t_location t) 0%Z))
      by (rewrite length_map, half_hours_length; exact Hk).
    rewrite map_nth, half_hours_nth by exact Hk.
    destruct (Hport k Hk) as [alt Halt].
    now rewrite (altitude_at_Return _ _ _ _ Halt).
  - intros Hin. apply half_hours_In in Hin as [k [Hk E]]. lia.
Qed.

(** C8: a date the time parser refuses makes [plot_altitude] raise
    [ValueError] in an untouched world (no port call, no figure), and
    [main] report "Incorrect format for date!" and return, again without
    any port call; with the civil-calendar parser, 2024-02-30 is refused
    and 2024-03-01 is accepted and yields 48 samples. *)
Theorem invalid_date_refused :
  (forall s t date w,
      Time_of_string ((date ++ " ") ++ "00:00:00") = None ->
      plot_altitude s t date w = (Raise ValueError, w))
  /\ (forall a date rest tr,
         yes a = true ->
         Time_of_string ((date ++ " ") ++ "00:00:00") = None ->
         main (mkWorld (a :: date :: rest) tr)
         = (Return tt,
            mkWorld rest
              (tr ++ preamble
                  ++ [ask_plot; ask_date;
                      Printed (Fmt "Incorrect format for date!" [])])))
  /\ Civil.Time_of_string (("2024-02-30" ++ " ") ++ "00:00:00") = None
  /\ (forall w, plot_altitude (L := reference_library) demo_Src demo_Tel
                  "2024-02-30" w = (Raise ValueError, w))
  /\ (forall w, exists fig,
         plot_altitude (L := reference_library) demo_Src demo_Tel
           "2024-03-01" w
         = (Return tt,
            after w
              (map (fun x => Transformed (s_location demo_Src)
                               (mkAltAz (t_location demo_Tel) x))
                   (plot_times fig)
               ++ [Shown fig]))
         /\ List.length (plot_times fig) = 48%nat
         /\ List.length (plot_altitudes fig) = 48%nat).
Proof.
  split; [intros; now apply plot_altitude_bad_date |].
  split; [intros; now apply main_bad_date |].
  split; [reflexivity |].
  split;
    [intros w; now apply (plot_altitude_bad_date (L := reference_library)) |].
  intros w.
  exists (altitude_figure (L := reference_library) demo_Src demo_Tel
            "2024-03-01" 1709251200%Z).
  split; [| split].
  - apply (plot_altitude_run (L := reference_library)); [reflexivity |].
    intros k _. eexists. reflexivity.
  - apply half_hours_length.
  - cbn [plot_altitudes altitude_figure]. rewrite length_map.
    apply half_hours_length.
Qed.

End Visibility.

Lemma plot_altitude_samples_witness :
  Civil.Time_of_string (("2024-03-01" ++ " ") ++ "00:00:00")
  = Some 1709251200%Z
  /\ (forall k, (k < 48)%nat ->
        exists alt, Civil.flat_sky (s_location demo_Src)
                      (mkAltAz (t_location demo_Tel)
                         (1709251200 + 1800 * Z.of_nat k)%Z)
                    = Return alt)
  /\ plot_altitude (L := reference_library) demo_Src demo_Tel "2024-03-01"
       (mkWorld [] [])
     = (Return tt,
        after (mkWorld [] [])
          (map (fun x => Transformed (s_location demo_Src)
                           (mkAltAz (t_location demo_Tel) x))
               (half_hours 1709251200%Z)
           ++ [Shown (altitude_figure (L := reference_library) demo_Src
                        demo_Tel "2024-03-01" 1709251200%Z)]))
  /\ List.length (half_hours 1709251200%Z) = 48%nat
  /\ last (half_hours 1709251200%Z) 0%Z = 1709335800%Z.
Proof.
  assert (Civil.Time_of_string (("2024-03-01" ++ " ") ++ "00:00:00")
          = Some 1709251200%Z) as Hdate by reflexivity.
  assert (forall k, (k < 48)%nat ->
            exists alt, Civil.flat_sky (s_location demo_Src)
                          (mkAltAz (t_location demo_Tel)
                             (1709251200 + 1800 * Z.of_nat k)%Z)
                        = Return alt) as Hport
    by (intros k _; eexists; reflexivity).
  split; [exact Hdate |]. split; [exact Hport |].
  pose proof (plot_altitude_samples (L := reference_library) demo_Src demo_Tel
                "2024-03-01" 1709251200%Z (mkWorld [] []) Hdate Hport) as H.
  cbv zeta in H. destruct H as [Hrun [Hlen [_ [_ [_ [Hlast _]]]]]].
  split; [exact Hrun |]. split; [exact Hlen | exact Hlast].
Defined.

Lemma invalid_date_refused_witness :
  Civil.Time_of_string (("2024-02-30" ++ " ") ++ "00:00:00") = None
  /\ yes "Y" = true
  /\ plot_altitude (L := reference_library) demo_Src demo_Tel "2024-02-30"
       (mkWorld [] [])
     = (Raise ValueError, mkWorld [] [])
  /\ main (L := reference_library) (mkWorld ["Y"; "2024-02-30"] [])
     = (Return tt,
        mkWorld []
          ([] ++ preamble (L := reference_library)
              ++ [ask_plot; ask_date;
                  Printed (Fmt "Incorrect format for date!" [])])).
Proof.
  assert (Civil.Time_of_string (("2024-02-30" ++ " ") ++ "00:00:00") = None)
    as Hdate by reflexivity.
  assert (yes "Y" = true) as Hyes by reflexivity.
  destruct (invalid_date_refused (L := reference_library))
    as [Hplot [Hmain _]].
  split; [exact Hdate |]. split; [exact Hyes |].
  split.
  - exact (Hplot demo_Src demo_Tel "2024-02-30" (mkWorld [] []) Hdate).
  - exact (Hmain "Y" "2024-02-30" [] [] Hyes Hdate).
Defined.

(** * Further properties of the script *)

(** ** The dish *)





(** ** A port that fails *)

Lemma half_hours_split (t0 : Time) (k : nat) :
  (k < 48)%nat ->
  half_hours t0
  = (map (fun j => (t0 + 1800 * Z.of_nat j)%Z) (seq 0 k)
     ++ (t0 + 1800 * Z.of_nat k)%Z
        :: map (fun j => (t0 + 1800 * Z.of_nat j)%Z) (seq (S k) (47 - k)))%list.
Proof.
  intros Hk. unfold half_hours.
  replace 48%nat with (k + S (47 - k))%nat by lia.
  rewrite seq_app, map_app. reflexivity.
Qed.

Lemma port_calls_S (s : Source) (t : Telescope) (t0 : Time) (k : nat) :
  port_calls s t t0 (S k)
  = (map (fun x => Transformed (s_location s) (mkAltAz (t_location t) x))
         (map (fun j => (t0 + 1800 * Z.of_nat j)%Z) (seq 0 k)
          ++ [(t0 + 1800 * Z.of_nat k)%Z]))%list.
Proof.
  unfold port_calls. rewrite seq_S, !map_app, map_map. reflexivity.
Qed.

Lemma port_calls_all (s : Source) (t : Telescope) (t0 : Time) :
  port_calls s t t0 48
  = map (fun x => Transformed (s_location s) (mkAltAz (t_location t) x))
        (half_hours t0).
Proof. unfold port_calls, half_hours. now rewrite map_map. Qed.

Section FailFast.

Context {L : Library}.

(** The loop stops at the first instant the port refuses: the calls made
    are those up to and including it, and its exception comes out. *)
Lemma altitude_loop_fail (s : Source) (t : Telescope) (pre post : list Time)
    (x : Time) (e : exn) :
  (forall y, In y pre ->
     exists a, transform_to_alt_deg (s_location s)
                 (mkAltAz (t_location t) y) = Return a) ->
  transform_to_alt_deg (s_location s) (mkAltAz (t_location t) x) = Raise e ->
  forall (acc : list R) (w : World),
    altitude_loop s t (pre ++ x :: post) acc w
    = (Raise e,
       after w (map (fun y => Transformed (s_location s)
                                (mkAltAz (t_location t) y))
                    (pre ++ [x]))).
Proof.
  intros Hpre Hx. induction pre as [| y pre IH]; intros acc w.
  - cbn [app altitude_loop map]. unfold bind, transform_to, bind, emit, lift.
    rewrite Hx. reflexivity.
  - destruct (Hpre y (or_introl eq_refl)) as [a Ha].
    cbn [app altitude_loop map]. unfold bind at 1.
    unfold transform_to, bind, emit, lift. rewrite Ha.
    rewrite IH by (intros z Hz; apply Hpre; now right).
    unfold after. cbn [stdin trace]. now rewrite <- app_assoc.
Qed.

(** [plot_altitude] is fail-fast: if the port answers for the instants
    before the k-th and raises at the k-th, the call raises that exception
    after exactly k+1 port calls, in order, and shows no figure. *)
Theorem plot_altitude_fail_fast (s : Source) (t : Telescope) (date : string)
    (t0 : Time) (k : nat) (e : exn) (w : World) :
  Time_of_string ((date ++ " ") ++ "00:00:00") = Some t0 ->
  (k < 48)%nat ->
  (forall j, (j < k)%nat ->
     exists alt, transform_to_alt_deg (s_location s)
                   (mkAltAz (t_location t) (t0 + 1800 * Z.of_nat j)%Z)
                 = Return alt) ->
  transform_to_alt_deg (s_location s)
    (mkAltAz (t_location t) (t0 + 1800 * Z.of_nat k)%Z) = Raise e ->
  plot_altitude s t date w = (Raise e, after w (port_calls s t t0 (S k))).
Proof.
  intros Hdate Hk Hbefore Hfail. unfold plot_altitude, bind at 1, Time_.
  rewrite Hdate. unfold ret at 1. rewrite observation_times_half_hours.
  unfold bind. rewrite (half_hours_split t0 k Hk).
  rewrite (altitude_loop_fail s t _ _ _ e); [| | exact Hfail].
  - now rewrite port_calls_S.
  - intros y Hy. apply in_map_iff in Hy as [j [<- Hj]].
    apply in_seq in Hj. apply Hbefore. lia.
Qed.

End FailFast.

Lemma noon_fault_morning (e : exn) (sky : SkyCoord) (loc : EarthLocation)
    (j : nat) :
  (j < 24)%nat ->
  noon_fault e sky (mkAltAz loc (1709251200 + 1800 * Z.of_nat j)%Z)
  = Return (dec sky).
Proof.
  intros Hj. unfold noon_fault. cbn [obstime].
  replace (1709251200 + 1800 * Z.of_nat j)%Z
    with (1800 * Z.of_nat j + 19783 * 86400)%Z by lia.
  rewrite Z_mod_plus_full, Z.mod_small by lia.
  now replace (1800 * Z.of_nat j <? 43200)%Z with true
    by (symmetry; apply Z.ltb_lt; lia).
Qed.

Lemma plot_altitude_fail_fast_witness :
  Civil.Time_of_string (("2024-03-01" ++ " ") ++ "00:00:00")
  = Some 1709251200%Z
  /\ (24 < 48)%nat
  /\ noon_fault TransformError (s_location demo_Src)
       (mkAltAz (t_location demo_Tel) (1709251200 + 1800 * Z.of_nat 24)%Z)
     = Raise TransformError
  /\ plot_altitude (L := faulty_library TransformError) demo_Src demo_Tel
       "2024-03-01" (mkWorld [] [])
     = (Raise TransformError,
        after (mkWorld [] []) (port_calls demo_Src demo_Tel 1709251200%Z 25)).
Proof.
  assert (Civil.Time_of_string (("2024-03-01" ++ " ") ++ "00:00:00")
          = Some 1709251200%Z) as Hdate by reflexivity.
  assert (24 < 48)%nat as Hk by lia.
  assert (noon_fault TransformError (s_location demo_Src)
            (mkAltAz (t_location demo_Tel)
               (1709251200 + 1800 * Z.of_nat 24)%Z)
          = Raise TransformError) as Hfail by reflexivity.
  split; [exact Hdate |]. split; [exact Hk |]. split; [exact Hfail |].
  apply (plot_altitude_fail_fast (L := faulty_library TransformError)
           demo_Src demo_Tel "2024-03-01" 1709251200%Z 24 TransformError
           (mkWorld [] []) Hdate Hk); [| exact Hfail].
  intros j Hj. eexists. now apply noon_fault_morning.
Defined.

(** ** Every way through [main] *)

Section Paths.

Context {L : Library}.


(** When the input runs out, [main] stops with [EOFError] right after the
    prompt that got no answer: at the first question on empty input, at the
    date or at the second question after one line, at the target after
    two. *)
Theorem main_end_of_input (tr : list event) :
  main (mkWorld [] tr)
  = (Raise EOFError, mkWorld [] (tr ++ preamble ++ [ask_plot]))
  /\ (forall a, yes a = true ->
        main (mkWorld [a] tr)
        = (Raise EOFError,
           mkWorld [] (tr ++ preamble ++ [ask_plot; ask_date])))
  /\ (forall a, yes a = false ->
        main (mkWorld [a] tr)
        = (Raise EOFError,
           mkWorld [] (tr ++ preamble ++ [ask_plot; ask_time])))
  /\ (forall a b, yes a = false -> yes b = true ->
        main (mkWorld [a; b] tr)
        = (Raise EOFError,
           mkWorld [] (tr ++ preamble ++ [ask_plot; ask_time; ask_snr]))).
Proof.
  unfold yes. split; [| split; [| split]].
  - run. do 2 f_equal. rewrite <- !app_assoc. reflexivity.
  - intros a Ha. run. rewrite Ha. run.
    do 2 f_equal. rewrite <- !app_assoc. reflexivity.
  - intros a Ha. run. rewrite Ha. run.
    do 2 f_equal. rewrite <- !app_assoc. reflexivity.
  - intros a b Ha Hb. run. rewrite Ha. run. rewrite Hb. run.
    do 2 f_equal. rewrite <- !app_assoc. reflexivity.
Qed.

(** A failure of the port during the plot: a [ValueError] is caught by the
    clause meant for the date and reported as "Incorrect format for date!",
    after which [main] returns without asking for the integration time; any
    other exception leaves [main] uncaught.  Either way the port was called
    k+1 times and no figure was shown. *)
Theorem main_port_failure (a date : string) (rest : list string)
    (tr : list event) (t0 : Time) (k : nat) (e : exn) :
  yes a = true ->
  Time_of_string ((date ++ " ") ++ "00:00:00") = Some t0 ->
  (k < 48)%nat ->
  (forall j, (j < k)%nat ->
     exists alt, transform_to_alt_deg (s_location main_Src)
                   (mkAltAz (t_location main_Tel) (t0 + 1800 * Z.of_nat j)%Z)
                 = Return alt) ->
  transform_to_alt_deg (s_location main_Src)
    (mkAltAz (t_location main_Tel) (t0 + 1800 * Z.of_nat k)%Z) = Raise e ->
  (e = ValueError ->
   main (mkWorld (a :: date :: rest) tr)
   = (Return tt,
      mkWorld rest
        (tr ++ preamble ++ [ask_plot; ask_date]
            ++ port_calls main_Src main_Tel t0 (S k)
            ++ [Printed (Fmt "Incorrect format for date!" [])])))
  /\ (e <> ValueError ->
      main (mkWorld (a :: date :: rest) tr)
      = (Raise e,
         mkWorld rest
           (tr ++ preamble ++ [ask_plot; ask_date]
               ++ port_calls main_Src main_Tel t0 (S k)))).
Proof.
  unfold yes. intros Ha Hdate Hk Hbefore Hfail.
  unfold main_Src, main_Tel in Hbefore, Hfail.
  assert (forall w,
            plot_altitude
              (mkSource S_name (SkyCoord_of S_RA S_Dec) S_flux_density)
              (mkTelescope T_name (EarthLocation_of T_latitude T_longitude)
                 T_diameter T_frequency T_bandwidth T_aperture_efficiency
                 T_system_temperature) date w
            = (Raise e, after w (port_calls main_Src main_Tel t0 (S k))))
    as Hplot
    by (intros w; exact (plot_altitude_fail_fast _ _ date t0 k e w
                           Hdate Hk Hbefore Hfail)).
  split; intros He.
  - subst e. run. rewrite Ha. run. rewrite Hdate. run. rewrite Hplot. run.
    do 2 f_equal. rewrite <- !app_assoc. reflexivity.
  - run. rewrite Ha. run. rewrite Hdate. run. rewrite Hplot. run.
    destruct e; try (now elim He);
      do 2 f_equal; rewrite <- !app_assoc; reflexivity.
Qed.

End Paths.

(** ** Sessions on the reference library *)

Lemma main_end_of_input_witness :
  yes "no" = false /\ yes "Yes" = true
  /\ main (L := reference_library) (mkWorld ["no"; "Yes"] [])
     = (Raise EOFError,
        mkWorld []
          ([] ++ preamble (L := reference_library)
              ++ [ask_plot; ask_time; ask_snr])).
Proof.
  assert (yes "no" = false) as Hno by reflexivity.
  assert (yes "Yes" = true) as Hyes by reflexivity.
  split; [exact Hno |]. split; [exact Hyes |].
  exact (proj2 (proj2 (proj2 (main_end_of_input (L := reference_library) [])))
           "no" "Yes" Hno Hyes).
Defined.

Lemma main_port_failure_witness :
  yes "y" = true
  /\ Civil.Time_of_string (("2024-03-01" ++ " ") ++ "00:00:00")
     = Some 1709251200%Z
  /\ (24 < 48)%nat
  /\ main (L := faulty_library ValueError)
       (mkWorld ["y"; "2024-03-01"; "y"; "10"] [])
     = (Return tt,
        mkWorld ["y"; "10"]
          ([] ++ preamble (L := faulty_library ValueError)
              ++ [ask_plot; ask_date]
              ++ port_calls (main_Src (L := faulty_library ValueError))
                   (main_Tel (L := faulty_library ValueError))
                   1709251200%Z 25
              ++ [Printed (Fmt "Incorrect format for date!" [])])).
Proof.
  assert (yes "y" = true) as Hyes by reflexivity.
  assert (Civil.Time_of_string (("2024-03-01" ++ " ") ++ "00:00:00")
          = Some 1709251200%Z) as Hdate by reflexivity.
  assert (24 < 48)%nat as Hk by lia.
  split; [exact Hyes |]. split; [exact Hdate |]. split; [exact Hk |].
  refine (proj1 (main_port_failure (L := faulty_library ValueError)
                   "y" "2024-03-01" ["y"; "10"] [] 1709251200%Z 24 ValueError
                   Hyes Hdate Hk _ eq_refl) eq_refl).
  intros j Hj. eexists. now apply noon_fault_morning.
Defined.

(** ** Which answers count as yes *)

Lemma lower_ascii_y (c : ascii) :
  lower_ascii c = "y"%char -> c = "y"%char \/ c = "Y"%char.
Proof.
  destruct c as [[] [] [] [] [] [] [] []]; cbv; intros H;
    try discriminate H; auto.
Qed.

Lemma lower_ascii_e (c : ascii) :
  lower_ascii c = "e"%char -> c = "e"%char \/ c = "E"%char.
Proof.
  destruct c as [[] [] [] [] [] [] [] []]; cbv; intros H;
    try discriminate H; auto.
Qed.

Lemma lower_ascii_s (c : ascii) :
  lower_ascii c = "s"%char -> c = "s"%char \/ c = "S"%char.
Proof.
  destruct c as [[] [] [] [] [] [] [] []]; cbv; intros H;
    try discriminate H; auto.
Qed.

(** The test [answer.lower() in ["y", "yes"]] of [main] accepts exactly the
    ten spellings of y and yes in either case; anything else, such as an
    empty line or an answer with a blank around it, counts as no. *)
Theorem yes_exactly (s : string) :
  (yes s = true <-> In s yes_answers)
  /\ yes "" = false /\ yes "yes " = false /\ yes " y" = false
  /\ yes "yeah" = false /\ yes "n" = false.
Proof.
  split; [| repeat split; reflexivity].
  split.
  - unfold yes, str_in. cbn [existsb]. rewrite orb_false_r, orb_true_iff.
    rewrite !String.eqb_eq. intros [H | H].
    + destruct s as [| c [| c' r]]; cbn [lower] in H; try discriminate H.
      injection H as H. apply lower_ascii_y in H as [-> | ->]; cbn; auto.
    + destruct s as [| c1 [| c2 [| c3 [| c4 r]]]]; cbn [lower] in H;
        try discriminate H.
      injection H as H1 H2 H3.
      apply lower_ascii_y in H1 as [-> | ->];
        apply lower_ascii_e in H2 as [-> | ->];
        apply lower_ascii_s in H3 as [-> | ->]; cbn; auto 12.
  - intros H. cbn in H.
    repeat (destruct H as [<- | H]; [reflexivity |]). contradiction.
Qed.

(** ** Declining the plot *)



(** * The binary64 program *)

Section Binary64_program.

Import Floats Binary64.
Local Open Scope float_scope.

(** ** Facts of binary64 arithmetic *)

Lemma SFeqb_refl (s : spec_float) : s <> S754_nan -> SFeqb s s = true.
Proof.
  destruct s as [b | b | | b m e]; intros H; try reflexivity.
  - now destruct b.
  - now elim H.
  - unfold SFeqb, SFcompare. rewrite Z.compare_refl.
    change (PosDef.Pos.compare_cont Eq m m) with (Pos.compare m m).
    rewrite Pos.compare_refl. now destruct b.
Qed.

Lemma is_nan_spec (x : float) : is_nan x = true <-> Prim2SF x = S754_nan.
Proof.
  unfold is_nan. rewrite FloatAxioms.eqb_spec. split.
  - intros H. destruct (Prim2SF x) eqn:E; try reflexivity;
      rewrite SFeqb_refl in H by discriminate; discriminate H.
  - intros ->. reflexivity.
Qed.

Lemma is_nan_eq (x : float) : is_nan x = true -> x = nan.
Proof.
  intros H. apply Prim2SF_inj. apply is_nan_spec in H. now rewrite H.
Qed.

Lemma is_zero_spec (x : float) :
  (x =? 0) = true <-> exists b, Prim2SF x = S754_zero b.
Proof.
  rewrite FloatAxioms.eqb_spec. change (Prim2SF 0) with (S754_zero false).
  destruct (Prim2SF x) as [b | b | | b m e]; split;
    try (intros [b' H]; discriminate H); try discriminate; eauto.
  - now destruct b.
  - now destruct b.
Qed.

Lemma abs_opp (x : float) : abs (- x) = abs x.
Proof.
  apply Prim2SF_inj. rewrite !abs_spec, opp_spec. now destruct (Prim2SF x).
Qed.

Lemma abs_abs (x : float) : abs (abs x) = abs x.
Proof. apply Prim2SF_inj. rewrite !abs_spec. now destruct (Prim2SF x). Qed.

Lemma is_nan_abs (x : float) : is_nan (abs x) = is_nan x.
Proof.
  apply eq_true_iff_eq. rewrite !is_nan_spec, abs_spec.
  destruct (Prim2SF x); cbn; split; congruence.
Qed.

Lemma is_zero_abs (x : float) : (abs x =? 0) = (x =? 0).
Proof.
  rewrite !FloatAxioms.eqb_spec, abs_spec.
  destruct (Prim2SF x) as [b | b | | b m e]; try reflexivity; now destruct b.
Qed.

(** A zero dividend times anything is a zero or a NaN. *)
Lemma mul_zero_l (x y : float) :
  (x =? 0) = true -> (x * y =? 0) = true \/ is_nan (x * y) = true.
Proof.
  rewrite !is_zero_spec, is_nan_spec, mul_spec. intros [b ->].
  destruct (Prim2SF y) as [c | c | | c m e]; cbn; eauto.
Qed.

(** A zero times a finite number is a zero. *)
Lemma mul_zero_finite (x y : float) :
  (x =? 0) = true -> is_finite y = true -> (x * y =? 0) = true.
Proof.
  unfold is_finite, is_infinity. rewrite negb_true_iff, orb_false_iff.
  rewrite !is_zero_spec, mul_spec. intros [b ->] [N I].
  assert (Prim2SF y <> S754_nan) as Hn
    by (intros E; apply is_nan_spec in E; congruence).
  rewrite FloatAxioms.eqb_spec, abs_spec in I.
  change (Prim2SF infinity) with (S754_infinity false) in I.
  destruct (Prim2SF y) as [c | c | | c m e]; cbn; eauto.
  - discriminate I.
  - now elim Hn.
Qed.

(** A zero or a NaN divided by a nonzero number is a zero or a NaN. *)
Lemma div_zero_or_nan (x y : float) :
  (x =? 0) = true \/ is_nan x = true -> (y =? 0) = false ->
  (x / y =? 0) = true \/ is_nan (x / y) = true.
Proof.
  rewrite !is_zero_spec, !is_nan_spec, div_spec. intros [[b ->] | ->] _.
  - destruct (Prim2SF y) as [c | c | | c m e]; cbn; eauto.
  - now right.
Qed.

(** A zero divided by a nonzero number that is not a NaN is a zero. *)
Lemma div_zero_l (x y : float) :
  (x =? 0) = true -> (y =? 0) = false -> is_nan y = false ->
  (x / y =? 0) = true.
Proof.
  intros Hx Hy Hn. rewrite is_zero_spec in Hx. destruct Hx as [b Hx].
  assert (Prim2SF y <> S754_nan) as Hn'
    by (intros E; apply is_nan_spec in E; congruence).
  assert (forall c, Prim2SF y <> S754_zero c) as Hz.
  { intros c E. assert ((y =? 0) = true) by (apply is_zero_spec; eauto).
    congruence. }
  apply is_zero_spec. rewrite div_spec, Hx.
  destruct (Prim2SF y) as [c | c | | c m e]; cbn; eauto.
  - now elim (Hz c).
  - now elim Hn'.
Qed.

(** ** Signs *)

Lemma not_negative_spec (x : float) :
  (x <? 0) = false <-> sf_not_negative (Prim2SF x).
Proof.
  rewrite ltb_spec. change (Prim2SF 0) with (S754_zero false).
  destruct (Prim2SF x) as [b | [] | | [] m e]; cbn; split;
    intros H; try reflexivity; try exact I; try discriminate H; try contradiction.
Qed.

Lemma positive_not_negative (x : float) : (0 <? x) = true -> (x <? 0) = false.
Proof.
  rewrite not_negative_spec, ltb_spec. change (Prim2SF 0) with (S754_zero false).
  destruct (Prim2SF x) as [b | [] | | [] m e]; cbn; intros H;
    try exact I; discriminate H.
Qed.

Lemma binary_round_aux_not_negative (prec emax m e : Z) (l : location) :
  sf_not_negative (binary_round_aux prec emax false m e l).
Proof.
  unfold binary_round_aux.
  destruct (shr_fexp prec emax m e l) as [mrs' e'].
  destruct (shr_fexp prec emax _ e' loc_Exact) as [mrs'' e''].
  destruct (shr_m mrs''); cbn; try exact I.
  now destruct (e'' <=? emax - prec)%Z.
Qed.

(** A product of numbers that are not negative is not negative. *)
Lemma mul_not_negative (x y : float) :
  (x <? 0) = false -> (y <? 0) = false -> (x * y <? 0) = false.
Proof.
  rewrite !not_negative_spec, mul_spec. unfold SF64mul, SFmul.
  destruct (Prim2SF x) as [b | [] | | [] m e];
    destruct (Prim2SF y) as [c | [] | | [] n f]; cbn;
    try contradiction; try (intros; exact I).
  intros _ _. apply binary_round_aux_not_negative.
Qed.

(** So is a quotient, the divisor not being a zero. *)
Lemma div_not_negative (x y : float) :
  (x <? 0) = false -> (y <? 0) = false -> (y =? 0) = false ->
  (x / y <? 0) = false.
Proof.
  intros Hx Hy Hz.
  assert (forall c, Prim2SF y <> S754_zero c) as Hnz.
  { intros c E. assert ((y =? 0) = true) by (apply is_zero_spec; eauto).
    congruence. }
  revert Hx Hy. rewrite !not_negative_spec, div_spec. unfold SF64div, SFdiv.
  destruct (Prim2SF x) as [b | [] | | [] m e];
    destruct (Prim2SF y) as [c | [] | | [] n f]; cbn;
    try contradiction; try (intros; exact I);
    try (now elim (Hnz c)).
  intros _ _.
  destruct (SFdiv_core_binary prec emax (Z.pos m) e (Z.pos n) f) as [[mz ez] lz].
  apply binary_round_aux_not_negative.
Qed.

(** ** [**] and [/] *)

Section With_libm.

Context {libm : Libm}.

(** The sign of the base is dropped before libm is called. *)
Lemma float_pow_abs (x iw : float) : float_pow (abs x) iw = float_pow x iw.
Proof.
  unfold float_pow. rewrite is_nan_abs.
  destruct (is_nan x) eqn:N.
  - apply is_nan_eq in N. subst x. reflexivity.
  - unfold is_infinity at 1 3. rewrite !abs_abs, is_zero_abs. reflexivity.
Qed.

Lemma float_pow_opp (x iw : float) : float_pow (- x) iw = float_pow x iw.
Proof. rewrite <- (float_pow_abs (- x)), abs_opp. apply float_pow_abs. Qed.

(** A square either overflows or has a value. *)
Lemma square_cases (x : float) :
  float_pow x 2 = Raise OverflowError \/ exists y, float_pow x 2 = Return y.
Proof.
  unfold float_pow.
  destruct (is_nan x); [right; eauto |].
  destruct (is_infinity x); [right; eauto |].
  destruct (x =? 0); [right; eexists; reflexivity |].
  cbv zeta. destruct (abs x =? 1); [right; eauto |].
  destruct (is_infinity _); [now left | right; eauto].
Qed.

Lemma jansky_cases :
  float_pow 10 (-26) = Raise OverflowError
  \/ exists y, float_pow 10 (-26) = Return y.
Proof.
  unfold float_pow. cbn.
  destruct (abs (libm_pow 10 (-26)) =? infinity); [now left | right; eauto].
Qed.

Lemma square_zero : float_pow 0 2 = Return 0.
Proof. reflexivity. Qed.

(** ** One run of each method *)

Lemma effective_area_outcome (t : Telescope) (w : World) :
  effective_area t w
  = (match float_pow (diameter t / 2) 2 with
     | Return square => Return (aperture_efficiency t * const_pi * square)
     | Raise e => Raise e
     end, w).
Proof.
  unfold effective_area, bind, lift, ret, truediv.
  change (2 =? 0) with false. cbv iota.
  now destruct (float_pow (diameter t / 2) 2).
Qed.

Lemma gain_outcome (t : Telescope) (w : World) :
  gain t w
  = (match float_pow (diameter t / 2) 2 with
     | Return square =>
         match float_pow 10 (-26) with
         | Return jansky =>
             Return (aperture_efficiency t * const_pi * square
                     / (2 * const_k) * jansky)
         | Raise e => Raise e
         end
     | Raise e => Raise e
     end, w).
Proof.
  unfold gain, bind. rewrite effective_area_outcome.
  destruct (float_pow (diameter t / 2) 2); [| reflexivity].
  unfold lift, ret, truediv. change (2 * const_k =? 0) with false. cbv iota.
  now destruct (float_pow 10 (-26)).
Qed.

(** Nothing a method computes touches the world. *)
Lemma effective_area_world (t : Telescope) (w : World) :
  snd (effective_area t w) = w.
Proof. now rewrite effective_area_outcome. Qed.

Lemma gain_world (t : Telescope) (w : World) : snd (gain t w) = w.
Proof. now rewrite gain_outcome. Qed.

Lemma gain_elsewhere (t : Telescope) (w w' : World) :
  fst (gain t w) = fst (gain t w').
Proof. now rewrite !gain_outcome. Qed.

Lemma integration_time_outcome (s : Source) (t : Telescope) (snr : float)
    (w : World) :
  integration_time s t snr w
  = (match float_pow snr 2 with
     | Return snr2 =>
         match float_pow (system_temperature t) 2 with
         | Return temp2 =>
             match fst (gain t w) with
             | Return g =>
                 match float_pow (g * flux_density s) 2 with
                 | Return gf2 =>
                     truediv (snr2 * temp2)
                             (gf2 * 2 * bandwidth t * 1000000)
                 | Raise e => Raise e
                 end
             | Raise e => Raise e
             end
         | Raise e => Raise e
         end
     | Raise e => Raise e
     end, w).
Proof.
  unfold integration_time, bind, lift.
  destruct (float_pow snr 2); [| reflexivity].
  destruct (float_pow (system_temperature t) 2); [| reflexivity].
  pose proof (gain_world t w) as Hw.
  destruct (gain t w) as [[g | e] w']; cbn [fst snd] in *; subst w';
    [| reflexivity].
  now destruct (float_pow (g * flux_density s) 2).
Qed.

Lemma print_integration_time_outcome (s : Source) (t : Telescope)
    (snr : float) (w : World) :
  print_integration_time s t snr w
  = match fst (integration_time s t snr w) with
    | Return time =>
        (Return tt, after w [Printed (integration_time_line snr time)])
    | Raise e => (Raise e, w)
    end.
Proof.
  unfold print_integration_time, bind. rewrite integration_time_outcome.
  cbn [fst]. now destruct (match float_pow snr 2 with _ => _ end).
Qed.

(** ** Effective area and gain *)

(** C5, as the program has it: for every telescope, [effective_area()]
    evaluates aperture_efficiency * pi * (diameter/2)**2 in binary64 and
    leaves the world untouched.  It has one error condition,
    [OverflowError], raised exactly when the square (diameter/2)**2
    overflows; otherwise it returns the rounded product with that square,
    which is not negative for a positive aperture efficiency (it can be 0,
    a tiny square underflowing).  For the configured telescope it returns
    70.77379930007088. *)
Theorem effective_area_binary64 (t : Telescope) (w : World) :
  (effective_area t w = (Raise OverflowError, w)
   \/ exists area, effective_area t w = (Return area, w))
  /\ (forall square,
        float_pow (diameter t / 2) 2 = Return square ->
        effective_area t w
        = (Return (aperture_efficiency t * const_pi * square), w))
  /\ (float_pow (diameter t / 2) 2 = Raise OverflowError <->
      effective_area t w = (Raise OverflowError, w))
  /\ (forall square,
        float_pow (diameter t / 2) 2 = Return square ->
        (square <? 0) = false ->
        (0 <? aperture_efficiency t) = true ->
        (aperture_efficiency t * const_pi * square <? 0) = false)
  /\ effective_area (libm := reference_libm) demo_Tel w
     = (Return 70.77379930007088, w).
Proof.
  assert (forall square,
            (square <? 0) = false ->
            (0 <? aperture_efficiency t) = true ->
            (aperture_efficiency t * const_pi * square <? 0) = false)
    as Hsign.
  { intros square Hs He. apply mul_not_negative; [| exact Hs].
    apply mul_not_negative; [now apply positive_not_negative | reflexivity]. }
  rewrite !effective_area_outcome.
  destruct (square_cases (diameter t / 2)) as [E | [y E]]; rewrite E.
  - split; [now left |]. split; [discriminate |]. split; [tauto |].
    split; [discriminate | reflexivity].
  - split; [right; eauto |]. split; [now intros ? [= <-] |].
    split; [split; discriminate |].
    split; [intros ? _; apply Hsign | reflexivity].
Qed.

(** C6, as the program has it: for every telescope, [gain()] evaluates
    effective_area() / (2 k) * 10**(-26) in binary64, with
    k = 1.380649e-23, and leaves the world untouched.  Its one error
    condition is [OverflowError], which it raises whenever
    [effective_area()] does.  The gain is not negative when the area and
    the value of 10**(-26) are not.  For the configured telescope it
    returns 0.025630627081927003. *)
Theorem gain_binary64 (t : Telescope) (w : World) :
  const_k = 1.380649e-23
  /\ (gain t w = (Raise OverflowError, w)
      \/ exists g, gain t w = (Return g, w))
  /\ (forall area jansky,
        effective_area t w = (Return area, w) ->
        float_pow 10 (-26) = Return jansky ->
        gain t w = (Return (area / (2 * const_k) * jansky), w))
  /\ (effective_area t w = (Raise OverflowError, w) ->
      gain t w = (Raise OverflowError, w))
  /\ (forall area jansky,
        (area <? 0) = false -> (jansky <? 0) = false ->
        (area / (2 * const_k) * jansky <? 0) = false)
  /\ gain (libm := reference_libm) demo_Tel w
     = (Return 0.025630627081927003, w).
Proof.
  split; [reflexivity |].
  assert (forall area jansky,
            (area <? 0) = false -> (jansky <? 0) = false ->
            (area / (2 * const_k) * jansky <? 0) = false) as Hsign.
  { intros area jansky Ha Hj. apply mul_not_negative; [| exact Hj].
    apply div_not_negative; [exact Ha | reflexivity | reflexivity]. }
  rewrite !gain_outcome, effective_area_outcome.
  destruct (square_cases (diameter t / 2)) as [E | [y E]]; rewrite E.
  - split; [now left |]. split; [discriminate |].
    split; [reflexivity |]. split; [exact Hsign | reflexivity].
  - destruct jansky_cases as [J | [j J]]; rewrite J.
    + split; [now left |]. split; [discriminate |].
      split; [discriminate |]. split; [exact Hsign | reflexivity].
    + split; [right; eauto |].
      split; [now intros ? ? [= <-] [= <-] |].
      split; [discriminate |]. split; [exact Hsign | reflexivity].
Qed.

(** ** The integration time *)


(** The outcome for a target is the outcome for its absolute value. *)
Lemma integration_time_abs (s : Source) (t : Telescope) (snr : float)
    (w : World) :
  integration_time s t (abs snr) w = integration_time s t snr w.
Proof. now rewrite !integration_time_outcome, float_pow_abs. Qed.

Lemma integration_time_opp (s : Source) (t : Telescope) (snr : float)
    (w : World) :
  integration_time s t (- snr) w = integration_time s t snr w.
Proof. now rewrite !integration_time_outcome, float_pow_opp. Qed.

(** C9, as the program has it: the integration time is an even function
    of the target: the run for -snr ends as the run for snr does, with the
    same value or the same exception, and so does the run for |snr|; a
    negative target is accepted wherever its absolute value is, and then
    prints the time of its absolute value.  For the configured telescope
    and source, -5 and 5 both give 26.576200016000893. *)
Theorem integration_time_even_binary64 (s : Source) (t : Telescope)
    (snr : float) (w : World) :
  integration_time s t (- snr) w = integration_time s t snr w
  /\ integration_time s t snr w = integration_time s t (abs snr) w
  /\ (forall time,
        integration_time s t (abs snr) w = (Return time, w) ->
        print_integration_time s t snr w
        = (Return tt, after w [Printed (integration_time_line snr time)]))
  /\ integration_time (libm := reference_libm) demo_Src demo_Tel (-5) w
     = (Return 26.576200016000893, w)
  /\ integration_time (libm := reference_libm) demo_Src demo_Tel 5 w
     = (Return 26.576200016000893, w).
Proof.
  split; [apply integration_time_opp |].
  split; [symmetry; apply integration_time_abs |].
  split.
  - intros time H. rewrite integration_time_abs in H.
    now rewrite print_integration_time_outcome, H.
  - split; reflexivity.
Qed.

(** C10, as the program has it: a target of exactly 0 passes no test;
    whenever the run completes, the time is a zero or a NaN, and it is a
    zero as soon as system_temperature**2 is finite and the divisor is a
    nonzero number.  For the configured telescope and source it is 0. *)
Theorem zero_snr_binary64 (s : Source) (t : Telescope) (w : World) :
  (forall time w',
      integration_time s t 0 w = (Return time, w') ->
      w' = w /\ ((time =? 0) = true \/ is_nan time = true))
  /\ (forall temp2 g gf2,
        float_pow (system_temperature t) 2 = Return temp2 ->
        is_finite temp2 = true ->
        gain t w = (Return g, w) ->
        float_pow (g * flux_density s) 2 = Return gf2 ->
        let divisor := gf2 * 2 * bandwidth t * 1000000 in
        (divisor =? 0) = false -> is_nan divisor = false ->
        exists time,
          integration_time s t 0 w = (Return time, w)
          /\ (time =? 0) = true)
  /\ integration_time (libm := reference_libm) demo_Src demo_Tel 0 w
     = (Return 0, w).
Proof.
  split; [| split].
  - intros time w'. rewrite integration_time_outcome, square_zero.
    destruct (float_pow (system_temperature t) 2) as [b |]; [| discriminate].
    destruct (fst (gain t w)) as [g |]; [| discriminate].
    destruct (float_pow (g * flux_density s) 2) as [gf2 |]; [| discriminate].
    unfold truediv. destruct (_ =? 0) eqn:D; [discriminate |].
    intros [= <- <-]. split; [reflexivity |].
    apply div_zero_or_nan; [| exact D]. now apply mul_zero_l.
  - intros temp2 g gf2 Ht Hfin Hg Hgf divisor Hd Hn.
    rewrite integration_time_outcome, square_zero, Ht, Hg. cbn [fst].
    rewrite Hgf. unfold truediv. fold divisor. rewrite Hd.
    eexists. split; [reflexivity |].
    apply div_zero_l; [| exact Hd | exact Hn]. now apply mul_zero_finite.
  - reflexivity.
Qed.

Section Boundary.

Context {L : Library}.

(** C4, as the program has it: an input that [float] refuses fails with
    [ValueError], which [main] reports as "Not a valid signal-to-noise
    ratio!" without computing a time; the sign of a numeric target is never
    tested: a target <= 0 ends exactly as its absolute value does, printing
    the time of its absolute value or raising the same arithmetic error.
    For the configured telescope and source, -5 prints 26.576200016000893
    and 0 prints 0. *)
Theorem snr_boundary_binary64 :
  (forall c w, float_of_string c = None -> float_ c w = (Raise ValueError, w))
  /\ (forall a b c rest tr,
         yes a = false -> yes b = true -> float_of_string c = None ->
         main (mkWorld (a :: b :: c :: rest) tr)
         = (Return tt,
            mkWorld rest
              (tr ++ preamble
                  ++ [ask_plot; ask_time; ask_snr;
                      Printed (Fmt "Not a valid signal-to-noise ratio!" [])])))
  /\ (forall s t snr w,
         (snr <=? 0) = true ->
         print_integration_time s t snr w
         = match fst (integration_time s t (abs snr) w) with
           | Return time =>
               (Return tt, after w [Printed (integration_time_line snr time)])
           | Raise e => (Raise e, w)
           end)
  /\ (forall w,
         print_integration_time (libm := reference_libm) demo_Src demo_Tel
           (-5) w
         = (Return tt,
            after w
              [Printed (integration_time_line (-5) 26.576200016000893)]))
  /\ (forall w,
         print_integration_time (libm := reference_libm) demo_Src demo_Tel
           0 w
         = (Return tt, after w [Printed (integration_time_line 0 0)])).
Proof.
  split; [| split; [| split; [| split]]].
  - intros c w Hc. unfold float_. now rewrite Hc.
  - intros. now apply main_bad_snr.
  - intros s t snr w _.
    now rewrite print_integration_time_outcome, integration_time_abs.
  - intros w. reflexivity.
  - intros w. reflexivity.
Qed.

End Boundary.

End With_libm.

(** ** Scaling *)




(** ** The invariants do not keep the arithmetic in range *)

Lemma dish_ok (d : float) : (0 <? d) = true -> Telescope_ok (dish d).
Proof.
  intros Hd. constructor; try reflexivity; try exact Hd; cbn.
  - discriminate.
  - lra.
  - lra.
  - now split.
Qed.

Lemma source_of_flux_ok (f : float) :
  (0 <? f) = true -> Source_ok (source_of_flux f).
Proof.
  intros Hf. constructor; try exact Hf; cbn.
  - discriminate.
  - lra.
  - lra.
Qed.

Lemma demo_Tel_ok : Telescope_ok demo_Tel.
Proof. now apply (dish_ok 12.8). Qed.

(** C5 as worded fails: a dish of diameter 1e200 satisfies the invariants
    and [effective_area()] raises [OverflowError]; a dish of diameter 1e-162
    satisfies them and the area returned is 0, not a positive number. *)
Lemma effective_area_counterexample :
  Telescope_ok (dish 1e200)
  /\ effective_area (libm := reference_libm) (dish 1e200) (mkWorld [] [])
     = (Raise OverflowError, mkWorld [] [])
  /\ Telescope_ok (dish 1e-162)
  /\ effective_area (libm := reference_libm) (dish 1e-162) (mkWorld [] [])
     = (Return 0, mkWorld [] [])
  /\ (0 <? 0) = false.
Proof.
  split; [now apply dish_ok |]. split; [reflexivity |].
  split; [now apply dish_ok |]. split; reflexivity.
Qed.

(** C6 as worded fails: for the same two dishes [gain()] raises
    [OverflowError] and returns 0. *)
Lemma gain_counterexample :
  Telescope_ok (dish 1e200)
  /\ gain (libm := reference_libm) (dish 1e200) (mkWorld [] [])
     = (Raise OverflowError, mkWorld [] [])
  /\ Telescope_ok (dish 1e-162)
  /\ gain (libm := reference_libm) (dish 1e-162) (mkWorld [] [])
     = (Return 0, mkWorld [] [])
  /\ (0 <? 0) = false.
Proof.
  split; [now apply dish_ok |]. split; [reflexivity |].
  split; [now apply dish_ok |]. split; reflexivity.
Qed.


(** C10 as worded fails: the gain of the configured telescope, a flux
    density of 1e-200 and the bandwidth are positive, and a target of 0
    raises [ZeroDivisionError]. *)
Lemma zero_snr_counterexample :
  gain (libm := reference_libm) demo_Tel (mkWorld [] [])
  = (Return 0.025630627081927003, mkWorld [] [])
  /\ (0 <? 0.025630627081927003) = true
  /\ (0 <? flux_density (source_of_flux 1e-200)) = true
  /\ (0 <? bandwidth demo_Tel) = true
  /\ print_integration_time (libm := reference_libm) (source_of_flux 1e-200)
       demo_Tel 0 (mkWorld [] [])
     = (Raise ZeroDivisionError, mkWorld [] []).
Proof. repeat split. Qed.

(** C9 as worded fails in its last part: on the configured telescope and
    source the target -1e-200 is accepted and gives the result of its
    absolute value, which is 0 and not a positive number. *)
Lemma integration_time_even_counterexample :
  Telescope_ok demo_Tel /\ Source_ok demo_Src
  /\ integration_time (libm := reference_libm) demo_Src demo_Tel (-1e-200)
       (mkWorld [] [])
     = (Return 0, mkWorld [] [])
  /\ integration_time (libm := reference_libm) demo_Src demo_Tel
       (abs (-1e-200)) (mkWorld [] [])
     = (Return 0, mkWorld [] [])
  /\ (0 <? 0) = false.
Proof.
  split; [exact demo_Tel_ok |].
  split; [now apply (source_of_flux_ok (1100.00 / 1000)) |].
  repeat split.
Qed.

(** C4 as worded fails: the targets -5 and 0 are not rejected on the
    configured telescope and source. *)
Lemma nonpositive_snr_counterexample :
  (-5 <=? 0) = true /\ (0 <=? 0) = true
  /\ ~ rejected (print_integration_time (libm := reference_libm)
                   demo_Src demo_Tel (-5)) (mkWorld [] [])
  /\ ~ rejected (print_integration_time (libm := reference_libm)
                   demo_Src demo_Tel 0) (mkWorld [] []).
Proof.
  repeat split; intros [e [w' H]]; discriminate H.
Qed.

(** ** Instances *)

Lemma effective_area_binary64_witness :
  float_pow (libm := reference_libm) (diameter demo_Tel / 2) 2
  = Return 40.96000000000001
  /\ effective_area (libm := reference_libm) demo_Tel (mkWorld [] [])
     = (Return (aperture_efficiency demo_Tel * const_pi * 40.96000000000001),
        mkWorld [] []).
Proof.
  assert (float_pow (libm := reference_libm) (diameter demo_Tel / 2) 2
          = Return 40.96000000000001) as H by reflexivity.
  split; [exact H |].
  exact (proj1 (proj2 (effective_area_binary64 (libm := reference_libm)
                         demo_Tel (mkWorld [] []))) _ H).
Defined.

Lemma gain_binary64_witness :
  effective_area (libm := reference_libm) demo_Tel (mkWorld [] [])
  = (Return 70.77379930007088, mkWorld [] [])
  /\ float_pow (libm := reference_libm) 10 (-26) = Return 1e-26
  /\ gain (libm := reference_libm) demo_Tel (mkWorld [] [])
     = (Return (70.77379930007088 / (2 * const_k) * 1e-26), mkWorld [] []).
Proof.
  assert (effective_area (libm := reference_libm) demo_Tel (mkWorld [] [])
          = (Return 70.77379930007088, mkWorld [] [])) as Ha by reflexivity.
  assert (float_pow (libm := reference_libm) 10 (-26) = Return 1e-26) as Hj
    by reflexivity.
  split; [exact Ha |]. split; [exact Hj |].
  exact (proj1 (proj2 (proj2 (gain_binary64 (libm := reference_libm)
                                demo_Tel (mkWorld [] [])))) _ _ Ha Hj).
Defined.


Lemma integration_time_even_binary64_witness :
  integration_time (libm := reference_libm) demo_Src demo_Tel (abs (-5))
    (mkWorld [] [])
  = (Return 26.576200016000893, mkWorld [] [])
  /\ print_integration_time (libm := reference_libm) demo_Src demo_Tel (-5)
       (mkWorld [] [])
     = (Return tt,
        after (mkWorld [] [])
          [Printed (integration_time_line (-5) 26.576200016000893)]).
Proof.
  assert (integration_time (libm := reference_libm) demo_Src demo_Tel
            (abs (-5)) (mkWorld [] [])
          = (Return 26.576200016000893, mkWorld [] [])) as H by reflexivity.
  split; [exact H |].
  exact (proj1 (proj2 (proj2
           (integration_time_even_binary64 (libm := reference_libm)
              demo_Src demo_Tel (-5) (mkWorld [] [])))) _ H).
Defined.

Lemma zero_snr_binary64_witness :
  float_pow (libm := reference_libm) (system_temperature demo_Tel) 2
  = Return 16900
  /\ is_finite 16900 = true
  /\ gain (libm := reference_libm) demo_Tel (mkWorld [] [])
     = (Return 0.025630627081927003, mkWorld [] [])
  /\ float_pow (libm := reference_libm)
       (0.025630627081927003 * flux_density demo_Src) 2
     = Return 0.0007948841439815002
  /\ exists time,
       integration_time (libm := reference_libm) demo_Src demo_Tel 0
         (mkWorld [] [])
       = (Return time, mkWorld [] [])
       /\ (time =? 0) = true.
Proof.
  assert (float_pow (libm := reference_libm) (system_temperature demo_Tel) 2
          = Return 16900) as H2 by reflexivity.
  assert (is_finite 16900 = true) as Hf by reflexivity.
  assert (gain (libm := reference_libm) demo_Tel (mkWorld [] [])
          = (Return 0.025630627081927003, mkWorld [] [])) as H3
    by reflexivity.
  assert (float_pow (libm := reference_libm)
            (0.025630627081927003 * flux_density demo_Src) 2
          = Return 0.0007948841439815002) as H4 by reflexivity.
  split; [exact H2 |]. split; [exact Hf |]. split; [exact H3 |].
  split; [exact H4 |].
  exact (proj1 (proj2 (zero_snr_binary64 (libm := reference_libm)
                         demo_Src demo_Tel (mkWorld [] [])))
           _ _ _ H2 Hf H3 H4 eq_refl eq_refl).
Defined.

Lemma snr_boundary_binary64_witness :
  Civil.float_of_string "abc" = None
  /\ main (L := reference_library) (mkWorld ["n"; "y"; "abc"]%string [])
     = (Return tt,
        mkWorld []
          ([] ++ preamble (L := reference_library)
              ++ [ask_plot; ask_time; ask_snr;
                  Printed (Fmt "Not a valid signal-to-noise ratio!" [])]))
  /\ (-5 <=? 0) = true
  /\ print_integration_time (libm := reference_libm) demo_Src demo_Tel (-5)
       (mkWorld [] [])
     = match
         fst (integration_time (libm := reference_libm) demo_Src demo_Tel
                (abs (-5)) (mkWorld [] []))
       with
       | Return time =>
           (Return tt,
            after (mkWorld [] [])
              [Printed (integration_time_line (-5) time)])
       | Raise e => (Raise e, mkWorld [] [])
       end.
Proof.
  assert (Civil.float_of_string "abc" = None) as Habc by reflexivity.
  assert ((-5 <=? 0) = true) as H5 by reflexivity.
  destruct (snr_boundary_binary64 (libm := reference_libm)
              (L := reference_library)) as [_ [Hbad [Hneg _]]].
  split; [exact Habc |].
  split; [exact (Hbad "n" "y" "abc" [] [] eq_refl eq_refl Habc)%string |].
  split; [exact H5 |].
  exact (Hneg demo_Src demo_Tel (-5) (mkWorld [] []) H5).
Defined.

End Binary64_program.
